(** * ai-chief-backend: the recipe endpoint and its upstream call

    A shallow embedding of [main.py]: the prompt built by
    [generate_recipe], the single POST of [send_to_gemini] and the
    translation of its failures into [HTTPException]s.

    Python values are embedded as follows.
    - A [str] is its sequence of Unicode code points ([pystr]); the literals
      of the UTF-8 source file are decoded by [u].
    - The value returned by [response.json()] is a [value] (the image of
      JSON in Python: [None], [bool], [int], [float], [str], [list], [dict]).
    - Exceptions are an inductive type [exn]; a computation either returns
      or raises, and emits the events it performs in order ([print] lines
      and the outbound POST), see [M].
    - The network is an oracle [post] from the request to what httpx does
      with it: a response, or one of the [RequestError]s. *)

From Stdlib Require Import List ZArith NArith Lia Bool String Ascii.
From Stdlib Require Import SpecFloat DecimalString.
Import ListNotations.

Set Implicit Arguments.
Set Warnings "-register-all".

(* ================================================================= *)
(** ** Python strings *)

Module Py.

(** A Python [str]: a sequence of code points. *)
Definition pystr := list N.

(** Decoder of the UTF-8 bytes of a source literal: [acc] is the code point
    under construction and [k] the number of continuation bytes it still
    expects. *)
Fixpoint utf8_go (s : string) (acc : N) (k : nat) : pystr :=
  match s with
  | EmptyString => []
  | String c s' =>
      let b := N_of_ascii c in
      match k with
      | O =>
          if (b <? 128)%N then b :: utf8_go s' 0%N O
          else if (b <? 224)%N then utf8_go s' (b - 192)%N 1%nat
          else if (b <? 240)%N then utf8_go s' (b - 224)%N 2%nat
          else utf8_go s' (b - 240)%N 3%nat
      | S k' =>
          let acc' := (acc * 64 + (b - 128))%N in
          match k' with
          | O => acc' :: utf8_go s' 0%N O
          | S _ => utf8_go s' acc' k'
          end
      end
  end.

(** The [str] denoted by a literal of the source file. *)
Definition u (s : string) : pystr := utf8_go s 0%N O.

(** The line feed written as a real line break inside the triple-quoted
    literals (and as the escape in ordinary ones). *)
Definition nl : pystr := [10%N].

Fixpoint pystr_eqb (a b : pystr) : bool :=
  match a, b with
  | [], [] => true
  | x :: a', y :: b' => (x =? y)%N && pystr_eqb a' b'
  | _, _ => false
  end.

(** [sep.join(parts)]. *)
Fixpoint join (sep : pystr) (parts : list pystr) : pystr :=
  match parts with
  | [] => []
  | [p] => p
  | p :: rest => p ++ sep ++ join sep rest
  end.

(** [str.isspace] on one code point: the Unicode white space characters. *)
Definition isspace (c : N) : bool :=
  ((9 <=? c) && (c <=? 13) || (28 <=? c) && (c <=? 32)
   || (c =? 133) || (c =? 160) || (c =? 5760)
   || (8192 <=? c) && (c <=? 8202)
   || (c =? 8232) || (c =? 8233) || (c =? 8239) || (c =? 8287)
   || (c =? 12288))%N.

(** [str.lstrip()], [str.rstrip()] and [str.strip()] without argument. *)
Fixpoint lstrip (s : pystr) : pystr :=
  match s with
  | [] => []
  | c :: s' => if isspace c then lstrip s' else s
  end.

Fixpoint rstrip (s : pystr) : pystr :=
  match s with
  | [] => []
  | c :: s' =>
      match rstrip s' with
      | [] => if isspace c then [] else [c]
      | r => c :: r
      end
  end.

Definition strip (s : pystr) : pystr := rstrip (lstrip s).

(** [m] is a prefix of [s]: [s.startswith(m)]. *)
Fixpoint startswith (m s : pystr) : bool :=
  match m, s with
  | [], _ => true
  | x :: m', y :: s' => (x =? y)%N && startswith m' s'
  | _ :: _, [] => false
  end.

(** [m in s] for two strings: [m] occurs in [s] as a contiguous run. *)
Fixpoint contains (m s : pystr) : bool :=
  startswith m s ||
  match s with
  | [] => false
  | _ :: s' => contains m s'
  end.

(** [str(n)] for an [int], as the f-strings format it. *)
Definition str_of_int (n : Z) : pystr :=
  u (NilZero.string_of_int (Z.to_int n)).

End Py.
Import Py.

(* ================================================================= *)
(** ** Python values, subscripting and exceptions *)

(** What [json.loads] builds. A [dict] is kept as its items; every key of
    a parsed JSON object is a [str], and [lookup] takes the first item with
    the key (the keys of a [dict] are distinct). *)
Inductive value : Type :=
| VNone
| VBool (b : bool)
| VInt (n : Z)
| VFloat (f : spec_float)
| VStr (s : pystr)
| VList (l : list value)
| VDict (d : list (pystr * value)).

(** The subscripts the program writes: a [str] key or an [int] index. *)
Inductive key : Type :=
| KStr (s : pystr)
| KInt (i : Z).

(** httpx: the response of a completed exchange. [json_body] is what
    [response.json()] evaluates to, [None] when the body does not decode. *)
Record Response : Type := mkResponse {
  status_code : Z;
  text : pystr;
  json_body : option value
}.

(** httpx: the leaves of the [RequestError] class hierarchy
    ([TransportError] with its time-outs, network, protocol and proxy
    errors, then [DecodingError] and [TooManyRedirects]). *)
Inductive request_error : Type :=
| ConnectTimeout | ReadTimeout | WriteTimeout | PoolTimeout
| ConnectError | ReadError | WriteError | CloseError
| LocalProtocolError | RemoteProtocolError
| ProxyError | UnsupportedProtocol
| DecodingError | TooManyRedirects.

(** The exceptions that occur in the program. *)
Inductive exn : Type :=
| HTTPStatusError (response : Response)
| RequestError (kind : request_error) (message : pystr)
| KeyError
| IndexError
| TypeError
| JSONDecodeError
| RequestValidationError
| HTTPException (code : Z) (detail : pystr).

Inductive result (A : Type) : Type :=
| Ok (a : A)
| Raise (e : exn).
Arguments Ok {A} a.
Arguments Raise {A} e.

Fixpoint lookup (k : pystr) (d : list (pystr * value)) : option value :=
  match d with
  | [] => None
  | (k', v) :: d' => if pystr_eqb k k' then Some v else lookup k d'
  end.

(** [seq[i]] on a sequence: a negative index counts from the end, an index
    out of range raises [IndexError]. *)
Definition seq_getitem {A : Type} (l : list A) (i : Z) : result A :=
  let n := Z.of_nat (List.length l) in
  let j := if (i <? 0)%Z then (i + n)%Z else i in
  if ((0 <=? j) && (j <? n))%Z then
    match nth_error l (Z.to_nat j) with
    | Some x => Ok x
    | None => Raise IndexError
    end
  else Raise IndexError.

(** [v[k]]. *)
Definition getitem (v : value) (k : key) : result value :=
  match v, k with
  | VDict d, KStr s =>
      match lookup s d with
      | Some x => Ok x
      | None => Raise KeyError
      end
  | VDict _, KInt _ => Raise KeyError
  | VList l, KInt i => seq_getitem l i
  | VList _, KStr _ => Raise TypeError
  | VStr s, KInt i =>
      match seq_getitem s i with
      | Ok c => Ok (VStr [c])
      | Raise e => Raise e
      end
  | VStr _, KStr _ => Raise TypeError
  | _, _ => Raise TypeError
  end.

(** The exceptions a subscript can raise. *)
Definition subscript_error (e : exn) : Prop :=
  e = KeyError \/ e = IndexError \/ e = TypeError.

(* ================================================================= *)
(** ** Computations: events emitted, then a value or an exception *)

(** The outbound request handed to [client.post]. *)
Record Request : Type := mkRequest {
  url : pystr;
  json : value;
  headers : list (pystr * pystr);
  timeout : Z
}.

Inductive event : Type :=
| Print (line : pystr)
| Post (request : Request).

Definition M (A : Type) : Type := (list event * result A)%type.

Definition ret {A : Type} (a : A) : M A := ([], Ok a).

Definition raise {A : Type} (e : exn) : M A := ([], Raise e).

Definition bind {A B : Type} (m : M A) (f : A -> M B) : M B :=
  match m with
  | (t, Ok a) => let (t', r) := f a in (t ++ t', r)
  | (t, Raise e) => (t, Raise e)
  end.

(** [try: body except ...: handler]; a handler that has no clause for the
    exception raises it again. *)
Definition try_except {A : Type} (body : M A) (handler : exn -> M A) : M A :=
  match body with
  | (t, Ok a) => (t, Ok a)
  | (t, Raise e) => let (t', r) := handler e in (t ++ t', r)
  end.

Definition lift {A : Type} (r : result A) : M A := ([], r).

Definition print (line : pystr) : M unit := ([Print line], Ok tt).

Notation "x <- m ;; k" := (bind m (fun x => k))
  (at level 61, m at next level, right associativity).
Notation "m ;;; k" := (bind m (fun _ => k))
  (at level 61, right associativity).

Definition events {A : Type} (m : M A) : list event := fst m.
Definition outcome {A : Type} (m : M A) : result A := snd m.

(* ================================================================= *)
(** ** httpx *)

(** What [client.post] does with a request: it returns the response of the
    exchange, whatever its status, or raises a [RequestError]. *)
Inductive post_outcome : Type :=
| Responded (response : Response)
| Failed (kind : request_error) (message : pystr).

(** [codes.is_success]: the 2xx statuses. *)
Definition is_success (code : Z) : bool := ((200 <=? code) && (code <=? 299))%Z.

(** [response.raise_for_status()]: every status outside 2xx raises
    [HTTPStatusError], which carries the response. *)
Definition raise_for_status (response : Response) : result Response :=
  if is_success (status_code response) then Ok response
  else Raise (HTTPStatusError response).

(** [response.json()]. *)
Definition response_json (response : Response) : result value :=
  match json_body response with
  | Some data => Ok data
  | None => Raise JSONDecodeError
  end.

(* ================================================================= *)
(** ** The prompt of [generate_recipe] *)

Inductive LanguageEnum : Type := fr | en.

Definition LanguageEnum_eqb (a b : LanguageEnum) : bool :=
  match a, b with
  | fr, fr | en, en => true
  | _, _ => false
  end.

Record RecipeRequest : Type := mkRecipeRequest {
  ingredients : list pystr;
  language : LanguageEnum
}.

(** The two literal parts of each f-string, before and after the
    [{ingredients}] field. *)
Definition prompt_fr_head : pystr :=
  nl ++
  u "    Tu es un chef cuisinier créatif et passionné. " ++ nl ++
  u "    Ton rôle est de créer une recette simple et délicieuse à partir des ingrédients suivants : ".

Definition prompt_fr_tail : pystr :=
  u "." ++ nl ++
  nl ++
  u "    Ta réponse doit être au format JSON et contenir les clés suivantes : " ++ nl ++
  u "    - nom_recette" ++ nl ++
  u "    - description_courte (2 phrases alléchantes)" ++ nl ++
  u "    - instructions (une liste d'étapes claires)" ++ nl ++
  nl ++
  u "    Utilise un style pédagogue et encourageant. Utilise du markdown." ++ nl ++
  u "    Réponds en français." ++ nl ++
  u "    N'hésite pas à ajouter des conseils ou des astuces pour réussir la recette." ++ nl ++
  u "    Utilise des émojis pour rendre la recette plus engageante." ++ nl ++
  u "    ".

Definition prompt_en_head : pystr :=
  nl ++
  u "    You're a creative and passionate chef. " ++ nl ++
  u "    Your role is to create a simple, delicious recipe using the following ingredients: ".

Definition prompt_en_tail : pystr :=
  u "." ++ nl ++
  nl ++
  u "    Your answer must be in JSON format and contain the following keys:" ++ nl ++
  u "    - recipe_name" ++ nl ++
  u "    - short_description (2 tantalizing sentences)" ++ nl ++
  u "    - instructions (a list of clear steps)" ++ nl ++
  nl ++
  u "    Use a pedagogical and encouraging style. Use markdown." ++ nl ++
  u "    Respond in English." ++ nl ++
  u "    Feel free to add tips or tricks to make the recipe a success." ++ nl ++
  u "    Use emojis to make the recipe more engaging." ++ nl ++
  u "    ".

Definition prompt_fr (ingredients : pystr) : pystr :=
  strip (prompt_fr_head ++ ingredients ++ prompt_fr_tail).

Definition prompt_en (ingredients : pystr) : pystr :=
  strip (prompt_en_head ++ ingredients ++ prompt_en_tail).

(** The prompt [generate_recipe] hands to [send_to_gemini]: lines 84 to
    118 without the [print]. *)
Definition build_prompt (data : RecipeRequest) : pystr :=
  let ingredients := join (u ", ") (ingredients data) in
  if LanguageEnum_eqb (language data) fr then prompt_fr ingredients
  else prompt_en ingredients.

(* ================================================================= *)
(** ** The service *)

(** The three settings read from the environment when the module loads. *)
Record Config : Type := mkConfig {
  GEMINI_API_KEY : pystr;
  GEMINI_MODEL : pystr;
  BASE_URL : pystr
}.

Definition detail_overloaded : pystr :=
  u "Le service d'analyse IA est surchargé. Veuillez réessayer plus tard.".
Definition detail_configuration : pystr :=
  u "Problème de configuration interne avec le service d'analyse IA.".
Definition detail_upstream : pystr :=
  u "Le service d'analyse IA externe rencontre un problème.".
Definition detail_unreachable : pystr :=
  u "Impossible de joindre le service d'analyse IA. Vérifiez votre connexion.".
Definition detail_format : pystr :=
  u "La réponse du service d'analyse IA est dans un format inattendu.".

Section Service.

Variable cfg : Config.
Variable post : Request -> post_outcome.

(** [await client.post(...)] inside [httpx.AsyncClient(timeout=60.0)]. *)
Definition client_post (request : Request) : M Response :=
  ([Post request],
   match post request with
   | Responded response => Ok response
   | Failed kind message => Raise (RequestError kind message)
   end).

Definition gemini_request (prompt : pystr) : Request :=
  let payload :=
    VDict [(u "contents",
            VList [VDict [(u "parts", VList [VDict [(u "text", VStr prompt)]])]])] in
  {| url := BASE_URL cfg ++ u "/v1beta/models/" ++ GEMINI_MODEL cfg
            ++ u ":generateContent?key=" ++ GEMINI_API_KEY cfg;
     json := payload;
     headers := [(u "Content-Type", u "application/json")];
     timeout := 60 |}.

(** [data["candidates"][0]["content"]["parts"][0]["text"]], evaluated from
    left to right. *)
Definition extract_text (data : value) : result value :=
  match getitem data (KStr (u "candidates")) with
  | Raise e => Raise e
  | Ok candidates =>
  match getitem candidates (KInt 0) with
  | Raise e => Raise e
  | Ok candidate =>
  match getitem candidate (KStr (u "content")) with
  | Raise e => Raise e
  | Ok content =>
  match getitem content (KStr (u "parts")) with
  | Raise e => Raise e
  | Ok parts =>
  match getitem parts (KInt 0) with
  | Raise e => Raise e
  | Ok part => getitem part (KStr (u "text"))
  end end end end end.

Definition send_to_gemini (prompt : pystr) : M value :=
  print (nl ++ u "--- Envoi de la requête à l'API Gemini... ---") ;;;
  try_except
    (response <- client_post (gemini_request prompt) ;;
     lift (raise_for_status response) ;;;
     data <- lift (response_json response) ;;
     print (u "--- ✅ Réponse reçue de Gemini. ---") ;;;
     lift (extract_text data))
    (fun e =>
       match e with
       | HTTPStatusError response =>
           let status_code := status_code response in
           let error_detail := text response in
           print (u "[ERREUR HTTP " ++ str_of_int status_code
                    ++ u "] Gemini a retourné une erreur : " ++ error_detail) ;;;
           if (status_code =? 429)%Z then
             raise (HTTPException 503 detail_overloaded)
           else if ((status_code =? 400) || (status_code =? 401)
                    || (status_code =? 403))%Z then
             raise (HTTPException 500 detail_configuration)
           else
             raise (HTTPException 502 detail_upstream)
       | RequestError _ message =>
           print (u "[ERREUR RÉSEAU] Impossible de contacter Gemini : " ++ message) ;;;
           raise (HTTPException 504 detail_unreachable)
       | KeyError | IndexError =>
           raise (HTTPException 500 detail_format)
       | _ => raise e
       end).

Definition generate_recipe (data : RecipeRequest) : M value :=
  let ingredients := join (u ", ") (ingredients data) in
  let prompt_fr := prompt_fr ingredients in
  let prompt_en := prompt_en ingredients in
  print (u "--- ✅ Prompt intelligent construit. Prêt pour l'envoi. ---") ;;;
  let prompt :=
    if LanguageEnum_eqb (language data) fr then prompt_fr else prompt_en in
  gemini_response <- send_to_gemini prompt ;;
  print (nl ++ u "🎉 Recette générée avec succès ! 🎉") ;;;
  ret (VDict [(u "message", VStr (u "Recette générée avec succès 🎉"));
              (u "recipe", gemini_response)]).

(** The validation FastAPI runs on the JSON body against [RecipeRequest]
    before it calls the handler: [ingredients] a list of [str] (of any
    length), [language] one of the two values of [LanguageEnum]. *)
Fixpoint validate_ingredients (items : list value) : option (list pystr) :=
  match items with
  | [] => Some []
  | VStr s :: rest =>
      match validate_ingredients rest with
      | Some l => Some (s :: l)
      | None => None
      end
  | _ :: _ => None
  end.

Definition validate_language (v : value) : option LanguageEnum :=
  match v with
  | VStr s =>
      if pystr_eqb s (u "fr") then Some fr
      else if pystr_eqb s (u "en") then Some en
      else None
  | _ => None
  end.

Definition validate (body : value) : option RecipeRequest :=
  match body with
  | VDict d =>
      match lookup (u "ingredients") d, lookup (u "language") d with
      | Some (VList items), Some lang =>
          match validate_ingredients items, validate_language lang with
          | Some l, Some g => Some {| ingredients := l; language := g |}
          | _, _ => None
          end
      | _, _ => None
      end
  | _ => None
  end.

(** The route [POST /generate-recipe]. *)
Definition post_generate_recipe (body : value) : M value :=
  match validate body with
  | Some data => generate_recipe data
  | None => raise RequestValidationError
  end.

End Service.

(* ================================================================= *)
(** ** The vocabulary of the specification *)

(** The five failure categories, and the [HTTPException] of
    [send_to_gemini] each of them names. *)
Inductive category : Type :=
| ServiceOverloaded
| UpstreamMisconfigured
| UpstreamError
| UpstreamUnreachable
| UpstreamBadResponse.

Definition failure (c : category) : exn :=
  match c with
  | ServiceOverloaded => HTTPException 503 detail_overloaded
  | UpstreamMisconfigured => HTTPException 500 detail_configuration
  | UpstreamError => HTTPException 502 detail_upstream
  | UpstreamUnreachable => HTTPException 504 detail_unreachable
  | UpstreamBadResponse => HTTPException 500 detail_format
  end.

(** The category an exception that leaves [send_to_gemini] belongs to, if
    any. *)
Definition category_of (e : exn) : option category :=
  match e with
  | HTTPException code detail =>
      if (code =? 503)%Z && pystr_eqb detail detail_overloaded
      then Some ServiceOverloaded
      else if (code =? 500)%Z && pystr_eqb detail detail_configuration
      then Some UpstreamMisconfigured
      else if (code =? 502)%Z && pystr_eqb detail detail_upstream
      then Some UpstreamError
      else if (code =? 504)%Z && pystr_eqb detail detail_unreachable
      then Some UpstreamUnreachable
      else if (code =? 500)%Z && pystr_eqb detail detail_format
      then Some UpstreamBadResponse
      else None
  | _ => None
  end.

(** A path into a JSON document: members of objects and elements of
    arrays. *)
Inductive step : Type :=
| Member (name : pystr)
| Element (i : nat).

Fixpoint json_path (p : list step) (v : value) : option value :=
  match p with
  | [] => Some v
  | Member name :: p' =>
      match v with
      | VDict d =>
          match lookup name d with
          | Some x => json_path p' x
          | None => None
          end
      | _ => None
      end
  | Element i :: p' =>
      match v with
      | VList l =>
          match nth_error l i with
          | Some x => json_path p' x
          | None => None
          end
      | _ => None
      end
  end.

(** [candidates[0].content.parts[0].text]. *)
Definition text_path : list step :=
  [Member (u "candidates"); Element 0; Member (u "content");
   Member (u "parts"); Element 0; Member (u "text")].

(** [candidates[0].content.parts[0]], the part that holds the text. *)
Definition part_path : list step :=
  [Member (u "candidates"); Element 0; Member (u "content");
   Member (u "parts"); Element 0].

(** The prompt a request carries: [contents[0].parts[0].text] of its JSON
    payload. *)
Definition prompt_of (request : Request) : option value :=
  json_path [Member (u "contents"); Element 0; Member (u "parts");
             Element 0; Member (u "text")] (json request).

Fixpoint prompts_sent (t : list event) : list (option value) :=
  match t with
  | [] => []
  | Post request :: t' => prompt_of request :: prompts_sent t'
  | Print _ :: t' => prompts_sent t'
  end.

(** The template markers of the two languages. *)
Definition markers_fr : list pystr :=
  [u "nom_recette"; u "description_courte"; u "instructions"].
Definition markers_en : list pystr :=
  [u "recipe_name"; u "short_description"; u "instructions"].

Definition has_all (markers : list pystr) (s : pystr) : bool :=
  forallb (fun m => contains m s) markers.
Definition has_none (markers : list pystr) (s : pystr) : bool :=
  forallb (fun m => negb (contains m s)) markers.

(** The specification's property of the markers, as a test of one
    ingredient list: each prompt has the markers of its language and none
    of the other's. *)
Definition markers_as_claimed (items : list pystr) : bool :=
  let p_fr := build_prompt {| ingredients := items; language := fr |} in
  let p_en := build_prompt {| ingredients := items; language := en |} in
  has_all markers_fr p_fr && has_all markers_en p_en
  && has_none markers_en p_fr && has_none markers_fr p_en.

(** The text of each stripped template around the ingredients: what
    precedes the space before them, and what follows the full stop after
    them. *)
Definition fr_before : pystr := removelast (lstrip prompt_fr_head).
Definition fr_after : pystr := tl (rstrip prompt_fr_tail).
Definition en_before : pystr := removelast (lstrip prompt_en_head).
Definition en_after : pystr := tl (rstrip prompt_en_tail).

(** The JSON body of an inbound request. *)
Definition language_tag (g : LanguageEnum) : pystr :=
  match g with
  | fr => u "fr"
  | en => u "en"
  end.

Definition request_body (items : list pystr) (g : LanguageEnum) : value :=
  VDict [(u "ingredients", VList (map VStr items));
         (u "language", VStr (language_tag g))].

(* ================================================================= *)
(** ** The module body: configuration at start-up *)

(** How the module body ends: the three settings are bound, or the
    [RuntimeError] of line 22 stops the import. *)
Inductive startup_outcome : Type :=
| Started (cfg : Config)
| RuntimeError (message : pystr).

Definition missing_key_message : pystr :=
  u "ERREUR CRITIQUE: La variable d'environnement GEMINI_API_KEY n'est pas définie. L'application ne peut pas démarrer.".

(** [os.getenv(name, default)]. *)
Definition getenv_default (environ : pystr -> option pystr)
    (name default : pystr) : pystr :=
  match environ name with
  | Some v => v
  | None => default
  end.

(** Lines 15 to 29. [environ] is the environment once [load_dotenv] has
    run; [locale_available] tells whether [locale.setlocale] accepts
    [fr_FR.UTF-8]. The test [not GEMINI_API_KEY] holds of [None] and of the
    empty string. *)
Definition startup (locale_available : bool)
    (environ : pystr -> option pystr) : list event * startup_outcome :=
  let locale_events :=
    if locale_available then []
    else [Print (u "⚠️ Locale 'fr_FR.UTF-8' non trouvée. Format par défaut utilisé.")] in
  match environ (u "GEMINI_API_KEY") with
  | None | Some [] => (locale_events, RuntimeError missing_key_message)
  | Some key =>
      let model := getenv_default environ (u "GEMINI_MODEL")
                     (u "gemini-2.5-flash") in
      let base := getenv_default environ (u "BASE_URL")
                    (u "https://generativelanguage.googleapis.com") in
      (locale_events
         ++ [Print (u "✅ Clé API GEMINI chargée avec succès.");
             Print (u "✅ Modèle Gemini configuré : " ++ model)],
       Started {| GEMINI_API_KEY := key; GEMINI_MODEL := model;
                  BASE_URL := base |})
  end.

(* ================================================================= *)
(** ** Reading a run *)

(** The requests posted during a run, in order. *)
Fixpoint posts (t : list event) : list Request :=
  match t with
  | [] => []
  | Post request :: t' => request :: posts t'
  | Print _ :: t' => posts t'
  end.

(** The lines [send_to_gemini] prints around the exchange. *)
Definition sending_line : pystr :=
  nl ++ u "--- Envoi de la requête à l'API Gemini... ---".
Definition received_line : pystr :=
  u "--- ✅ Réponse reçue de Gemini. ---".
Definition http_error_line (response : Response) : pystr :=
  u "[ERREUR HTTP " ++ str_of_int (status_code response)
    ++ u "] Gemini a retourné une erreur : " ++ text response.
Definition network_error_line (message : pystr) : pystr :=
  u "[ERREUR RÉSEAU] Impossible de contacter Gemini : " ++ message.

(** The lines [generate_recipe] prints, and the object it returns. *)
Definition prompt_built_line : pystr :=
  u "--- ✅ Prompt intelligent construit. Prêt pour l'envoi. ---".
Definition recipe_done_line : pystr :=
  nl ++ u "🎉 Recette générée avec succès ! 🎉".
Definition recipe_response (gemini_response : value) : value :=
  VDict [(u "message", VStr (u "Recette générée avec succès 🎉"));
         (u "recipe", gemini_response)].

(* ================================================================= *)
(** ** Sample configurations, responses and networks *)

Definition sample_cfg : Config :=
  {| GEMINI_API_KEY := u "secret";
     GEMINI_MODEL := u "gemini-2.5-flash";
     BASE_URL := u "https://generativelanguage.googleapis.com" |}.

(** A network that answers every request with [response]. *)
Definition respond (response : Response) : Request -> post_outcome :=
  fun _ => Responded response.

(** A network on which every request fails with the error [kind]. *)
Definition fail_with (kind : request_error) : Request -> post_outcome :=
  fun _ => Failed kind (u "All connection attempts failed").

(** A response with an error status; its body is not JSON. *)
Definition status_only (code : Z) : Response :=
  {| status_code := code; text := u "upstream says no"; json_body := None |}.

(** A 200 response whose body decodes to [data]. *)
Definition ok_json (data : value) : Response :=
  {| status_code := 200; text := []; json_body := Some data |}.

(** The reply [{candidates: [{content: {parts: [{text: t}]}}]}]. *)
Definition candidates_reply (t : value) : value :=
  VDict [(u "candidates",
          VList [VDict [(u "content",
                         VDict [(u "parts", VList [VDict [(u "text", t)]])])]])].

(** The body [{candidates: null}]. *)
Definition null_candidates : value := VDict [(u "candidates", VNone)].

(** The body [{candidates: "abc"}]. *)
Definition text_candidates : value := VDict [(u "candidates", VStr (u "abc"))].

(** A request for a recipe in English. *)
Definition sample_request : RecipeRequest :=
  {| ingredients := [u "tomato"; u "basil"; u "garlic"]; language := en |}.

(** An environment that sets the key and leaves the rest to the defaults,
    and one that also sets the model to the empty string. *)
Definition key_only_environ : pystr -> option pystr :=
  fun name => if pystr_eqb name (u "GEMINI_API_KEY") then Some (u "secret")
              else None.

Definition empty_model_environ : pystr -> option pystr :=
  fun name => if pystr_eqb name (u "GEMINI_API_KEY") then Some (u "secret")
              else if pystr_eqb name (u "GEMINI_MODEL") then Some []
              else None.

(* ================================================================= *)
(** ** The string functions on small inputs *)

Example u_ascii : u "fr" = [102; 114]%N.
Proof. reflexivity. Qed.

Example u_two_bytes : u "é" = [233%N].
Proof. reflexivity. Qed.

Example u_three_bytes : u "⚠" = [9888%N].
Proof. reflexivity. Qed.

Example u_four_bytes : u "🎉" = [127881%N].
Proof. reflexivity. Qed.

Example join_three :
  join (u ", ") [u "tomato"; u "basil"; u "garlic"] = u "tomato, basil, garlic".
Proof. reflexivity. Qed.

Example strip_both_ends : strip (nl ++ u "    a b. " ++ nl ++ u "    ") = u "a b.".
Proof. reflexivity. Qed.

Example str_of_int_429 : str_of_int 429 = u "429".
Proof. reflexivity. Qed.

Example str_of_int_neg : str_of_int (-7) = u "-7".
Proof. reflexivity. Qed.

(* ================================================================= *)
(** ** Equations of the computation monad *)

Lemma outcome_bind {A B : Type} (m : M A) (f : A -> M B) :
  outcome (bind m f) =
  match outcome m with
  | Ok a => outcome (f a)
  | Raise e => Raise e
  end.
Proof.
  destruct m as [t [a | e]]; simpl; [destruct (f a) |]; reflexivity.
Qed.

Lemma events_bind {A B : Type} (m : M A) (f : A -> M B) :
  events (bind m f) =
  events m ++ match outcome m with
              | Ok a => events (f a)
              | Raise _ => []
              end.
Proof.
  destruct m as [t [a | e]]; simpl; [destruct (f a) | rewrite app_nil_r];
    reflexivity.
Qed.

Lemma outcome_try_except {A : Type} (body : M A) (handler : exn -> M A) :
  outcome (try_except body handler) =
  match outcome body with
  | Ok a => Ok a
  | Raise e => outcome (handler e)
  end.
Proof.
  destruct body as [t [a | e]]; simpl; [| destruct (handler e)]; reflexivity.
Qed.

Lemma events_try_except {A : Type} (body : M A) (handler : exn -> M A) :
  events (try_except body handler) =
  events body ++ match outcome body with
                 | Ok _ => []
                 | Raise e => events (handler e)
                 end.
Proof.
  destruct body as [t [a | e]]; simpl; [rewrite app_nil_r | destruct (handler e)];
    reflexivity.
Qed.

Lemma outcome_print (line : pystr) : outcome (print line) = Ok tt.
Proof. reflexivity. Qed.

Lemma events_print (line : pystr) : events (print line) = [Print line].
Proof. reflexivity. Qed.

Lemma outcome_lift {A : Type} (r : result A) : outcome (lift r) = r.
Proof. reflexivity. Qed.

Lemma events_lift {A : Type} (r : result A) : events (lift r) = [].
Proof. reflexivity. Qed.

Lemma outcome_raise {A : Type} (e : exn) : outcome (@raise A e) = Raise e.
Proof. reflexivity. Qed.

Lemma outcome_ret {A : Type} (a : A) : outcome (ret a) = Ok a.
Proof. reflexivity. Qed.

Lemma events_raise {A : Type} (e : exn) : events (@raise A e) = [].
Proof. reflexivity. Qed.

Lemma events_ret {A : Type} (a : A) : events (ret a) = [].
Proof. reflexivity. Qed.

Lemma outcome_client_post post request :
  outcome (client_post post request) =
  match post request with
  | Responded response => Ok response
  | Failed kind message => Raise (RequestError kind message)
  end.
Proof. reflexivity. Qed.

Lemma events_client_post post request :
  events (client_post post request) = [Post request].
Proof. reflexivity. Qed.

Create Rewrite HintDb outcome.
Create Rewrite HintDb events.
#[local] Hint Rewrite @outcome_bind @outcome_try_except outcome_print
  @outcome_lift @outcome_raise @outcome_ret outcome_client_post : outcome.
#[local] Hint Rewrite @events_bind @events_try_except events_print
  @events_lift @events_raise @events_ret events_client_post : events.

(** [generate_recipe] hands [build_prompt data] to [send_to_gemini]. *)
Lemma generate_recipe_prompt cfg post data :
  generate_recipe cfg post data =
  (print (u "--- ✅ Prompt intelligent construit. Prêt pour l'envoi. ---") ;;;
   gemini_response <- send_to_gemini cfg post (build_prompt data) ;;
   print (nl ++ u "🎉 Recette générée avec succès ! 🎉") ;;;
   ret (VDict [(u "message", VStr (u "Recette générée avec succès 🎉"));
               (u "recipe", gemini_response)])).
Proof. reflexivity. Qed.

(** The outcome of [send_to_gemini], by what [client.post] did. *)
Lemma send_to_gemini_failed cfg post prompt kind message :
  post (gemini_request cfg prompt) = Failed kind message ->
  outcome (send_to_gemini cfg post prompt) =
  Raise (HTTPException 504 detail_unreachable).
Proof.
  intros Hpost. unfold send_to_gemini.
  autorewrite with outcome. rewrite Hpost.
  autorewrite with outcome. reflexivity.
Qed.

Lemma send_to_gemini_status cfg post prompt response :
  post (gemini_request cfg prompt) = Responded response ->
  is_success (status_code response) = false ->
  outcome (send_to_gemini cfg post prompt) =
  if (status_code response =? 429)%Z then
    Raise (HTTPException 503 detail_overloaded)
  else if ((status_code response =? 400) || (status_code response =? 401)
           || (status_code response =? 403))%Z then
    Raise (HTTPException 500 detail_configuration)
  else Raise (HTTPException 502 detail_upstream).
Proof.
  intros Hpost Hstatus. unfold send_to_gemini.
  autorewrite with outcome. rewrite Hpost.
  unfold raise_for_status. rewrite Hstatus.
  autorewrite with outcome.
  destruct (status_code response =? 429)%Z;
    [| destruct ((status_code response =? 400) || (status_code response =? 401)
                 || (status_code response =? 403))%Z];
    autorewrite with outcome; reflexivity.
Qed.

Lemma seq_getitem_raises {A : Type} (l : list A) (i : Z) (e : exn) :
  seq_getitem l i = Raise e -> e = IndexError.
Proof.
  unfold seq_getitem.
  destruct ((0 <=? _) && _)%Z; [destruct (nth_error _ _) |];
    congruence.
Qed.

Lemma getitem_raises (v : value) (k : key) (e : exn) :
  getitem v k = Raise e -> subscript_error e.
Proof.
  unfold subscript_error.
  destruct v, k; simpl; intros H; try (injection H as <-; auto).
  - destruct (seq_getitem s i) eqn:E; [discriminate |].
    injection H as <-. apply seq_getitem_raises in E. auto.
  - apply seq_getitem_raises in H. auto.
  - destruct (lookup s d); [discriminate |]. injection H as <-. auto.
Qed.

Lemma extract_text_raises (data : value) (e : exn) :
  extract_text data = Raise e -> subscript_error e.
Proof.
  unfold extract_text.
  repeat match goal with
         | |- context [match getitem ?v ?k with _ => _ end] =>
             let E := fresh "E" in
             destruct (getitem v k) eqn:E;
             [| intros H; injection H as <-; eapply getitem_raises; eassumption]
         end.
  apply getitem_raises.
Qed.

Lemma send_to_gemini_success cfg post prompt response :
  post (gemini_request cfg prompt) = Responded response ->
  is_success (status_code response) = true ->
  outcome (send_to_gemini cfg post prompt) =
  match json_body response with
  | None => Raise JSONDecodeError
  | Some data =>
      match extract_text data with
      | Ok v => Ok v
      | Raise TypeError => Raise TypeError
      | Raise _ => Raise (HTTPException 500 detail_format)
      end
  end.
Proof.
  intros Hpost Hstatus. unfold send_to_gemini.
  autorewrite with outcome. rewrite Hpost.
  unfold raise_for_status, response_json. rewrite Hstatus.
  autorewrite with outcome.
  destruct (json_body response) as [data |]; autorewrite with outcome.
  - destruct (extract_text data) as [v | e] eqn:E; autorewrite with outcome.
    + reflexivity.
    + apply extract_text_raises in E.
      destruct E as [-> | [-> | ->]]; autorewrite with outcome; reflexivity.
  - reflexivity.
Qed.

(* ================================================================= *)
(** ** Substrings and stripping *)

Lemma startswith_spec (m s : pystr) :
  startswith m s = true <-> exists b, s = m ++ b.
Proof.
  revert s. induction m as [| x m IH]; intros s; simpl.
  - split; [exists s; reflexivity | reflexivity].
  - destruct s as [| y s].
    + split; [discriminate | intros [b Hb]; discriminate].
    + rewrite andb_true_iff, N.eqb_eq, IH. split.
      * intros [-> [b ->]]. exists b. reflexivity.
      * intros [b Hb]. injection Hb as -> ->.
        split; [reflexivity | exists b; reflexivity].
Qed.

Lemma contains_spec (m s : pystr) :
  contains m s = true <-> exists a b, s = a ++ m ++ b.
Proof.
  induction s as [| y s IH].
  - simpl. rewrite orb_false_r, startswith_spec. split.
    + intros [b Hb]. exists [], b. exact Hb.
    + intros [a [b Hb]]. destruct a; [exists b; exact Hb | discriminate].
  - cbn [contains]. rewrite orb_true_iff, startswith_spec, IH. split.
    + intros [[b Hb] | [a [b Hb]]].
      * exists [], b. exact Hb.
      * exists (y :: a), b. rewrite Hb. reflexivity.
    + intros [[| x a] [b Hb]].
      * left. exists b. exact Hb.
      * right. injection Hb as -> ->. exists a, b. reflexivity.
Qed.

(** An occurrence of [m] cannot straddle a character that [m] lacks. *)
Lemma contains_sep (m a b : pystr) (c : N) :
  ~ In c m ->
  contains m (a ++ c :: b) = contains m a || contains m b.
Proof.
  intros Hc. apply eq_true_iff_eq.
  rewrite orb_true_iff, !contains_spec. split.
  - intros [x [y H]].
    apply app_eq_app in H as [l [[-> H] | [-> H]]].
    + apply app_eq_app in H as [l' [[-> H] | [-> ->]]].
      * destruct l' as [| c' l'].
        -- left. exists x, []. rewrite !app_nil_r. reflexivity.
        -- injection H as <- _. exfalso.
           apply Hc, in_or_app. right. left. reflexivity.
      * left. exists x, l'. reflexivity.
    + destruct l as [| c' l].
      * destruct m as [| c' m].
        -- left. exists a, []. rewrite app_nil_r. reflexivity.
        -- injection H as -> _. exfalso. apply Hc. left. reflexivity.
      * injection H as _ ->. right. exists l, y. reflexivity.
  - intros [[x [y ->]] | [x [y ->]]].
    + exists x, (y ++ c :: b). rewrite <- !app_assoc. reflexivity.
    + exists (a ++ c :: x), y. rewrite <- app_assoc. reflexivity.
Qed.

Lemma lacks_spec (c : N) (m : pystr) :
  existsb (N.eqb c) m = false -> ~ In c m.
Proof.
  intros H Hin.
  assert (existsb (N.eqb c) m = true) as E
    by (apply existsb_exists; exists c; split; [exact Hin | apply N.eqb_refl]).
  congruence.
Qed.

Lemma lstrip_app (h x : pystr) :
  lstrip h <> [] -> lstrip (h ++ x) = lstrip h ++ x.
Proof.
  induction h as [| c h IH]; simpl; intros H.
  - contradiction.
  - destruct (isspace c); [apply IH, H | reflexivity].
Qed.

Lemma rstrip_app (x t : pystr) :
  rstrip t <> [] -> rstrip (x ++ t) = x ++ rstrip t.
Proof.
  intros H. induction x as [| c x IH]; simpl.
  - reflexivity.
  - rewrite IH. destruct (x ++ rstrip t) eqn:E; [| reflexivity].
    apply app_eq_nil in E as [_ E]. contradiction.
Qed.

(** What [strip] leaves of the two literal parts of each template. *)
Lemma prompt_fr_closed (ingredients : pystr) :
  prompt_fr ingredients =
  lstrip prompt_fr_head ++ ingredients ++ rstrip prompt_fr_tail.
Proof.
  unfold prompt_fr, strip.
  rewrite lstrip_app by (vm_compute; discriminate).
  rewrite app_assoc, rstrip_app by (vm_compute; discriminate).
  rewrite <- app_assoc. reflexivity.
Qed.

Lemma prompt_en_closed (ingredients : pystr) :
  prompt_en ingredients =
  lstrip prompt_en_head ++ ingredients ++ rstrip prompt_en_tail.
Proof.
  unfold prompt_en, strip.
  rewrite lstrip_app by (vm_compute; discriminate).
  rewrite app_assoc, rstrip_app by (vm_compute; discriminate).
  rewrite <- app_assoc. reflexivity.
Qed.

(** A marker without a space and without a full stop occurs in a prompt
    of the shape [a ++ " " ++ ingredients ++ "." ++ b] inside one of the three
    parts. *)
Lemma contains_framed (m a x b : pystr) :
  existsb (N.eqb 32) m = false ->
  existsb (N.eqb 46) m = false ->
  contains m ((a ++ [32%N]) ++ x ++ 46%N :: b) =
  contains m a || contains m x || contains m b.
Proof.
  intros Hspace Hstop.
  rewrite <- app_assoc. simpl.
  rewrite (@contains_sep m _ _ 32%N (@lacks_spec 32%N m Hspace)).
  rewrite (@contains_sep m _ _ 46%N (@lacks_spec 46%N m Hstop)).
  apply orb_assoc.
Qed.

(* ================================================================= *)
(** ** The failure taxonomy of [send_to_gemini] *)

Lemma category_of_failure (c : category) : category_of (failure c) = Some c.
Proof. destruct c; vm_compute; reflexivity. Qed.

Lemma detail_nonempty (c : category) :
  match failure c with
  | HTTPException _ detail => detail <> []
  | _ => False
  end.
Proof. destruct c; vm_compute; discriminate. Qed.

(** C1. An upstream response whose status is outside 2xx and is none of
    429, 400, 401 and 403 (a 3xx or a 5xx, for instance) makes
    [send_to_gemini] raise the 502 exception, the category [UpstreamError],
    with a detail string that is not empty; nothing is returned. *)
Theorem other_status_is_upstream_error cfg post prompt response :
  post (gemini_request cfg prompt) = Responded response ->
  is_success (status_code response) = false ->
  status_code response <> 429%Z ->
  status_code response <> 400%Z ->
  status_code response <> 401%Z ->
  status_code response <> 403%Z ->
  outcome (send_to_gemini cfg post prompt)
  = Raise (HTTPException 502 detail_upstream)
  /\ category_of (HTTPException 502 detail_upstream) = Some UpstreamError
  /\ detail_upstream <> [].
Proof.
  intros Hpost Hstatus H429 H400 H401 H403.
  split; [| split].
  - rewrite (send_to_gemini_status _ _ _ Hpost Hstatus).
    destruct (Z.eqb_spec (status_code response) 429); [contradiction |].
    destruct (Z.eqb_spec (status_code response) 400); [contradiction |].
    destruct (Z.eqb_spec (status_code response) 401); [contradiction |].
    destruct (Z.eqb_spec (status_code response) 403); [contradiction |].
    reflexivity.
  - exact (category_of_failure UpstreamError).
  - exact (detail_nonempty UpstreamError).
Qed.

Lemma other_status_is_upstream_error_witness :
  outcome (send_to_gemini sample_cfg (respond (status_only 500)) (u "soup"))
  = Raise (HTTPException 502 detail_upstream)
  /\ category_of (HTTPException 502 detail_upstream) = Some UpstreamError
  /\ detail_upstream <> [].
Proof.
  apply (@other_status_is_upstream_error sample_cfg (respond (status_only 500))
           (u "soup") (status_only 500));
    [reflexivity | reflexivity | simpl; lia ..].
Defined.

(** The same on a redirect, which the client does not follow, and on an
    informational status. *)
Example redirect_is_upstream_error :
  outcome (send_to_gemini sample_cfg (respond (status_only 302)) (u "soup"))
  = Raise (HTTPException 502 detail_upstream).
Proof. reflexivity. Qed.

Example informational_is_upstream_error :
  outcome (send_to_gemini sample_cfg (respond (status_only 101)) (u "soup"))
  = Raise (HTTPException 502 detail_upstream).
Proof. reflexivity. Qed.

(** C5. An upstream response with status 429 makes [send_to_gemini] raise
    the 503 exception, the category [ServiceOverloaded], with a detail
    string that is not empty. *)
Theorem status_429_is_service_overloaded cfg post prompt response :
  post (gemini_request cfg prompt) = Responded response ->
  status_code response = 429%Z ->
  outcome (send_to_gemini cfg post prompt)
  = Raise (HTTPException 503 detail_overloaded)
  /\ category_of (HTTPException 503 detail_overloaded) = Some ServiceOverloaded
  /\ detail_overloaded <> [].
Proof.
  intros Hpost Hcode.
  split; [| split].
  - rewrite (send_to_gemini_status _ _ _ Hpost)
      by (rewrite Hcode; reflexivity).
    rewrite Hcode. reflexivity.
  - exact (category_of_failure ServiceOverloaded).
  - exact (detail_nonempty ServiceOverloaded).
Qed.

Lemma status_429_is_service_overloaded_witness :
  outcome (send_to_gemini sample_cfg (respond (status_only 429)) (u "soup"))
  = Raise (HTTPException 503 detail_overloaded)
  /\ category_of (HTTPException 503 detail_overloaded) = Some ServiceOverloaded
  /\ detail_overloaded <> [].
Proof.
  apply (@status_429_is_service_overloaded sample_cfg
           (respond (status_only 429)) (u "soup") (status_only 429));
    reflexivity.
Defined.

(** C6. An upstream response with status 400, 401 or 403 makes
    [send_to_gemini] raise the 500 exception of the category
    [UpstreamMisconfigured], with a detail string that is not empty. *)
Theorem status_400_401_403_is_misconfigured cfg post prompt response :
  post (gemini_request cfg prompt) = Responded response ->
  status_code response = 400%Z \/ status_code response = 401%Z
  \/ status_code response = 403%Z ->
  outcome (send_to_gemini cfg post prompt)
  = Raise (HTTPException 500 detail_configuration)
  /\ category_of (HTTPException 500 detail_configuration)
     = Some UpstreamMisconfigured
  /\ detail_configuration <> [].
Proof.
  intros Hpost Hcode.
  split; [| split].
  - rewrite (send_to_gemini_status _ _ _ Hpost)
      by (destruct Hcode as [-> | [-> | ->]]; reflexivity).
    destruct Hcode as [-> | [-> | ->]]; reflexivity.
  - exact (category_of_failure UpstreamMisconfigured).
  - exact (detail_nonempty UpstreamMisconfigured).
Qed.

Lemma status_400_401_403_is_misconfigured_witness :
  outcome (send_to_gemini sample_cfg (respond (status_only 403)) (u "soup"))
  = Raise (HTTPException 500 detail_configuration)
  /\ category_of (HTTPException 500 detail_configuration)
     = Some UpstreamMisconfigured
  /\ detail_configuration <> [].
Proof.
  apply (@status_400_401_403_is_misconfigured sample_cfg
           (respond (status_only 403)) (u "soup") (status_only 403));
    [reflexivity | right; right; reflexivity].
Defined.

(** C7. When [client.post] raises a [RequestError] (no response was
    obtained: a connection or protocol failure, or one of the time-outs of
    the client, which is created with the time-out 60), [send_to_gemini]
    raises the 504 exception, the category [UpstreamUnreachable], with a
    detail string that is not empty; the request was posted once. *)
Theorem request_error_is_unreachable cfg post prompt kind message :
  post (gemini_request cfg prompt) = Failed kind message ->
  outcome (send_to_gemini cfg post prompt)
  = Raise (HTTPException 504 detail_unreachable)
  /\ category_of (HTTPException 504 detail_unreachable)
     = Some UpstreamUnreachable
  /\ detail_unreachable <> []
  /\ timeout (gemini_request cfg prompt) = 60%Z
  /\ prompts_sent (events (send_to_gemini cfg post prompt))
     = [Some (VStr prompt)].
Proof.
  intros Hpost.
  split; [| split; [| split; [| split]]].
  - exact (send_to_gemini_failed _ _ _ Hpost).
  - exact (category_of_failure UpstreamUnreachable).
  - exact (detail_nonempty UpstreamUnreachable).
  - reflexivity.
  - unfold send_to_gemini.
    autorewrite with events outcome. rewrite Hpost.
    autorewrite with events outcome. reflexivity.
Qed.

Lemma request_error_is_unreachable_witness :
  outcome (send_to_gemini sample_cfg (fail_with ReadTimeout) (u "soup"))
  = Raise (HTTPException 504 detail_unreachable)
  /\ category_of (HTTPException 504 detail_unreachable)
     = Some UpstreamUnreachable
  /\ detail_unreachable <> []
  /\ timeout (gemini_request sample_cfg (u "soup")) = 60%Z
  /\ prompts_sent (events (send_to_gemini sample_cfg (fail_with ReadTimeout)
                             (u "soup")))
     = [Some (VStr (u "soup"))].
Proof.
  apply (@request_error_is_unreachable sample_cfg (fail_with ReadTimeout)
           (u "soup") ReadTimeout (u "All connection attempts failed")).
  reflexivity.
Defined.

(* ================================================================= *)
(** ** The success path: subscripts against the JSON path *)

Lemma seq_getitem_0 {A : Type} (l : list A) (x : A) :
  seq_getitem l 0 = Ok x <-> nth_error l 0 = Some x.
Proof.
  destruct l as [| y l]; unfold seq_getitem; simpl.
  - split; discriminate.
  - split; intros H; injection H as ->; reflexivity.
Qed.

Lemma getitem_member (v : value) (name : pystr) (x : value) :
  getitem v (KStr name) = Ok x <-> exists d, v = VDict d /\ lookup name d = Some x.
Proof.
  split.
  - destruct v; simpl; try discriminate.
    destruct (lookup name d) eqn:E; [| discriminate].
    intros H. injection H as ->. exists d. split; [reflexivity | exact E].
  - intros [d [-> E]]. simpl. rewrite E. reflexivity.
Qed.

(** Element 0 of an array is what [v[0]] evaluates to; on a [str] the
    subscript gives a [str] again, which has no members. *)
Lemma getitem_element_member (v x y : value) (name : pystr) :
  getitem v (KInt 0) = Ok x ->
  getitem x (KStr name) = Ok y ->
  exists l, v = VList l /\ nth_error l 0 = Some x.
Proof.
  intros Hx Hy. destruct v; simpl in Hx; try discriminate.
  - destruct (seq_getitem s 0); [| discriminate].
    injection Hx as <-. discriminate.
  - exists l. split; [reflexivity | apply seq_getitem_0, Hx].
Qed.

Lemma extract_text_ok (data v : value) :
  extract_text data = Ok v <-> json_path text_path data = Some v.
Proof.
  unfold extract_text, text_path. split.
  - destruct (getitem data (KStr (u "candidates"))) as [c |] eqn:E1;
      [| discriminate].
    destruct (getitem c (KInt 0)) as [c0 |] eqn:E2; [| discriminate].
    destruct (getitem c0 (KStr (u "content"))) as [ct |] eqn:E3;
      [| discriminate].
    destruct (getitem ct (KStr (u "parts"))) as [ps |] eqn:E4;
      [| discriminate].
    destruct (getitem ps (KInt 0)) as [p0 |] eqn:E5; [| discriminate].
    intros E6.
    destruct (getitem_element_member _ _ E5 E6) as [l5 [-> N5]].
    destruct (getitem_element_member _ _ E2 E3) as [l2 [-> N2]].
    apply getitem_member in E1 as [d1 [-> L1]].
    apply getitem_member in E3 as [d3 [-> L3]].
    apply getitem_member in E4 as [d4 [-> L4]].
    apply getitem_member in E6 as [d6 [-> L6]].
    cbn [json_path].
    rewrite L1, N2, L3, L4, N5, L6. reflexivity.
  - cbn [json_path]. intros H.
    destruct data as [| | | | | | d1]; try discriminate.
    destruct (lookup (u "candidates") d1) as [[| | | | | l2 |] |] eqn:L1;
      try discriminate.
    destruct (nth_error l2 0) as [[| | | | | | d3] |] eqn:N2; try discriminate.
    destruct (lookup (u "content") d3) as [[| | | | | | d4] |] eqn:L3;
      try discriminate.
    destruct (lookup (u "parts") d4) as [[| | | | | l5 |] |] eqn:L4;
      try discriminate.
    destruct (nth_error l5 0) as [[| | | | | | d6] |] eqn:N5; try discriminate.
    destruct (lookup (u "text") d6) as [t |] eqn:L6; try discriminate.
    injection H as ->.
    apply seq_getitem_0 in N2, N5.
    cbn [getitem]. rewrite L1.
    cbn [getitem]. rewrite N2.
    cbn [getitem]. rewrite L3.
    cbn [getitem]. rewrite L4.
    cbn [getitem]. rewrite N5.
    cbn [getitem]. rewrite L6. reflexivity.
Qed.

(** A body without the path never makes the call succeed: the failure is
    the 500 exception of [UpstreamBadResponse] when a subscript raised
    [KeyError] or [IndexError], and a [TypeError] that no clause catches
    otherwise. *)
Lemma missing_path_outcomes cfg post prompt response data :
  post (gemini_request cfg prompt) = Responded response ->
  is_success (status_code response) = true ->
  json_body response = Some data ->
  json_path text_path data = None ->
  outcome (send_to_gemini cfg post prompt) = Raise (HTTPException 500 detail_format)
  \/ outcome (send_to_gemini cfg post prompt) = Raise TypeError.
Proof.
  intros Hpost Hstatus Hbody Hpath.
  rewrite (send_to_gemini_success _ _ _ Hpost Hstatus), Hbody.
  destruct (extract_text data) as [v | e] eqn:E.
  - apply extract_text_ok in E. congruence.
  - destruct (extract_text_raises _ E) as [-> | [-> | ->]]; auto.
Qed.

(** A body that is an object without the key [candidates] is such a
    [KeyError]. *)
Lemma missing_candidates_is_bad_response cfg post prompt response d :
  post (gemini_request cfg prompt) = Responded response ->
  is_success (status_code response) = true ->
  json_body response = Some (VDict d) ->
  lookup (u "candidates") d = None ->
  outcome (send_to_gemini cfg post prompt) = Raise (HTTPException 500 detail_format).
Proof.
  intros Hpost Hstatus Hbody Hkey.
  rewrite (send_to_gemini_success _ _ _ Hpost Hstatus), Hbody.
  unfold extract_text. cbn [getitem]. rewrite Hkey. reflexivity.
Qed.

Lemma extract_text_of_part (data part : value) :
  json_path part_path data = Some part ->
  extract_text data = getitem part (KStr (u "text")).
Proof.
  unfold part_path, extract_text. cbn [json_path]. intros H.
  destruct data as [| | | | | | d1]; try discriminate.
  destruct (lookup (u "candidates") d1) as [[| | | | | l2 |] |] eqn:L1;
    try discriminate.
  destruct (nth_error l2 0) as [[| | | | | | d3] |] eqn:N2; try discriminate.
  destruct (lookup (u "content") d3) as [[| | | | | | d4] |] eqn:L3;
    try discriminate.
  destruct (lookup (u "parts") d4) as [[| | | | | l5 |] |] eqn:L4;
    try discriminate.
  destruct (nth_error l5 0) as [p0 |] eqn:N5; try discriminate.
  injection H as ->.
  apply seq_getitem_0 in N2, N5.
  cbn [getitem]. rewrite L1.
  cbn [getitem]. rewrite N2.
  cbn [getitem]. rewrite L3.
  cbn [getitem]. rewrite L4.
  cbn [getitem]. rewrite N5. reflexivity.
Qed.

Lemma getitem_member_type_error (v : value) (name : pystr) :
  (forall d, v <> VDict d) -> getitem v (KStr name) = Raise TypeError.
Proof.
  intros H. destruct v; try reflexivity. exfalso. exact (H d eq_refl).
Qed.

(** C8. When the upstream answers with a 2xx status and a JSON body that
    holds the string [t] at [candidates[0].content.parts[0].text],
    [send_to_gemini] returns [t] and [generate_recipe] returns the object
    with the two members [message] and [recipe], [recipe] being [t]
    itself. *)
Theorem well_formed_reply_is_relayed cfg post d response data t :
  post (gemini_request cfg (build_prompt d)) = Responded response ->
  is_success (status_code response) = true ->
  json_body response = Some data ->
  json_path text_path data = Some (VStr t) ->
  outcome (send_to_gemini cfg post (build_prompt d)) = Ok (VStr t)
  /\ outcome (generate_recipe cfg post d)
     = Ok (VDict [(u "message", VStr (u "Recette générée avec succès 🎉"));
                  (u "recipe", VStr t)]).
Proof.
  intros Hpost Hstatus Hbody Hpath.
  assert (outcome (send_to_gemini cfg post (build_prompt d)) = Ok (VStr t))
    as Hsend.
  { rewrite (send_to_gemini_success _ _ _ Hpost Hstatus), Hbody.
    apply extract_text_ok in Hpath. rewrite Hpath. reflexivity. }
  split; [exact Hsend |].
  rewrite generate_recipe_prompt. autorewrite with outcome.
  rewrite Hsend. autorewrite with outcome. reflexivity.
Qed.

Lemma well_formed_reply_is_relayed_witness :
  outcome (send_to_gemini sample_cfg
             (respond (ok_json (candidates_reply (VStr (u "Recipe XYZ")))))
             (build_prompt sample_request))
  = Ok (VStr (u "Recipe XYZ"))
  /\ outcome (generate_recipe sample_cfg
                (respond (ok_json (candidates_reply (VStr (u "Recipe XYZ")))))
                sample_request)
     = Ok (VDict [(u "message", VStr (u "Recette générée avec succès 🎉"));
                  (u "recipe", VStr (u "Recipe XYZ"))]).
Proof.
  apply (@well_formed_reply_is_relayed sample_cfg
           (respond (ok_json (candidates_reply (VStr (u "Recipe XYZ")))))
           sample_request
           (ok_json (candidates_reply (VStr (u "Recipe XYZ"))))
           (candidates_reply (VStr (u "Recipe XYZ")))
           (u "Recipe XYZ")); reflexivity.
Defined.

(** C3, at the body [{candidates: null}]. The status is 2xx and the body
    lacks the path, yet the subscript of [None] raises [TypeError], which
    no clause of [send_to_gemini] catches: the call ends with that
    exception and not with the 500 exception of [UpstreamBadResponse]. *)
Theorem null_candidates_is_not_translated :
  is_success (status_code (ok_json null_candidates)) = true
  /\ json_path text_path null_candidates = None
  /\ outcome (send_to_gemini sample_cfg (respond (ok_json null_candidates))
                (u "soup"))
     = Raise TypeError
  /\ category_of TypeError = None.
Proof. repeat split; reflexivity. Qed.

(** C10. On a 2xx response, [send_to_gemini] raises the 500 exception of
    [UpstreamBadResponse] exactly when the body decoded and a subscript
    raised [KeyError] or [IndexError]. A body that is not JSON leaves the
    call through [JSONDecodeError]; a body in which [candidates] is a string
    that is not empty, or in which [parts[0]] is not an object, leaves it
    through [TypeError]. Neither exception belongs to one of the five
    categories. *)
Theorem only_key_and_index_errors_are_translated cfg post prompt response :
  post (gemini_request cfg prompt) = Responded response ->
  is_success (status_code response) = true ->
  (outcome (send_to_gemini cfg post prompt)
   = Raise (HTTPException 500 detail_format)
   <-> exists data,
       json_body response = Some data
       /\ (extract_text data = Raise KeyError
           \/ extract_text data = Raise IndexError))
  /\ (json_body response = None ->
      outcome (send_to_gemini cfg post prompt) = Raise JSONDecodeError)
  /\ (forall d c s,
      json_body response = Some (VDict d) ->
      lookup (u "candidates") d = Some (VStr (c :: s)) ->
      outcome (send_to_gemini cfg post prompt) = Raise TypeError)
  /\ (forall data part,
      json_body response = Some data ->
      json_path part_path data = Some part ->
      (forall d, part <> VDict d) ->
      outcome (send_to_gemini cfg post prompt) = Raise TypeError)
  /\ category_of JSONDecodeError = None
  /\ category_of TypeError = None.
Proof.
  intros Hpost Hstatus.
  rewrite (send_to_gemini_success _ _ _ Hpost Hstatus).
  split; [| split; [| split; [| split; [| split]]]].
  - split.
    + destruct (json_body response) as [data |]; [| discriminate].
      intros H. exists data. split; [reflexivity |].
      destruct (extract_text data) as [v | e] eqn:E; [discriminate |].
      destruct (extract_text_raises _ E) as [-> | [-> | ->]];
        [auto | auto | discriminate].
    + intros [data [-> [-> | ->]]]; reflexivity.
  - intros ->. reflexivity.
  - intros d c s -> Hkey.
    unfold extract_text. cbn [getitem]. rewrite Hkey. reflexivity.
  - intros data part -> Hpart Hshape.
    rewrite (extract_text_of_part _ Hpart).
    rewrite (getitem_member_type_error _ Hshape). reflexivity.
  - reflexivity.
  - reflexivity.
Qed.

Lemma only_key_and_index_errors_are_translated_witness :
  outcome (send_to_gemini sample_cfg (respond (ok_json text_candidates))
             (u "soup"))
  = Raise TypeError
  /\ category_of TypeError = None.
Proof.
  destruct (@only_key_and_index_errors_are_translated sample_cfg
              (respond (ok_json text_candidates)) (u "soup")
              (ok_json text_candidates) eq_refl eq_refl)
    as (_ & _ & Hstr & _ & _ & Hcat).
  split; [| exact Hcat].
  apply (Hstr [(u "candidates", VStr (u "abc"))] 97%N (u "bc")); reflexivity.
Defined.

(** The other two ways out of the taxonomy, on sample responses. *)
Example body_not_json_is_not_translated :
  outcome (send_to_gemini sample_cfg
             (respond {| status_code := 200; text := u "<html>";
                         json_body := None |}) (u "soup"))
  = Raise JSONDecodeError.
Proof. reflexivity. Qed.

Example part_not_object_is_not_translated :
  outcome (send_to_gemini sample_cfg
             (respond (ok_json
                (VDict [(u "candidates",
                         VList [VDict [(u "content",
                           VDict [(u "parts", VList [VInt 7])])]])])))
             (u "soup"))
  = Raise TypeError.
Proof. reflexivity. Qed.

(** Subscripts that do raise [KeyError] or [IndexError]: no candidate, and
    [candidates] bound to the empty string or to an object. *)
Example no_candidate_is_bad_response :
  outcome (send_to_gemini sample_cfg
             (respond (ok_json (VDict [(u "candidates", VList [])])))
             (u "soup"))
  = Raise (HTTPException 500 detail_format).
Proof. reflexivity. Qed.

Example empty_text_candidates_is_bad_response :
  outcome (send_to_gemini sample_cfg
             (respond (ok_json (VDict [(u "candidates", VStr [])])))
             (u "soup"))
  = Raise (HTTPException 500 detail_format).
Proof. reflexivity. Qed.

Example object_candidates_is_bad_response :
  outcome (send_to_gemini sample_cfg
             (respond (ok_json (VDict [(u "candidates", VDict [])])))
             (u "soup"))
  = Raise (HTTPException 500 detail_format).
Proof. reflexivity. Qed.

(* ================================================================= *)
(** ** The prompt *)

Lemma prompts_sent_app (a b : list event) :
  prompts_sent (a ++ b) = prompts_sent a ++ prompts_sent b.
Proof.
  induction a as [| [line | request] a IH]; simpl; [| | rewrite IH];
    auto.
Qed.

Lemma prompt_of_gemini_request cfg prompt :
  prompt_of (gemini_request cfg prompt) = Some (VStr prompt).
Proof. reflexivity. Qed.

(** [send_to_gemini] posts its prompt once, whatever the network does. *)
Lemma send_to_gemini_posts_once cfg post prompt :
  prompts_sent (events (send_to_gemini cfg post prompt)) = [Some (VStr prompt)].
Proof.
  unfold send_to_gemini, raise_for_status, response_json.
  repeat first
    [ progress autorewrite with events outcome
    | rewrite prompts_sent_app
    | progress cbn [prompts_sent app]
    | rewrite prompt_of_gemini_request
    | match goal with
      | |- context [match post ?r with _ => _ end] => destruct (post r)
      | |- context [match json_body ?r with _ => _ end] =>
          destruct (json_body r)
      | |- context [match extract_text ?d with _ => _ end] =>
          destruct (extract_text d) as [? | []]
      | e : exn |- _ => destruct e
      | |- context [if ?c then _ else _] => destruct c
      end ];
    reflexivity.
Qed.

Lemma generate_recipe_posts_once cfg post d :
  prompts_sent (events (generate_recipe cfg post d))
  = [Some (VStr (build_prompt d))].
Proof.
  rewrite generate_recipe_prompt.
  autorewrite with events outcome.
  rewrite !prompts_sent_app, send_to_gemini_posts_once.
  cbn [prompts_sent app].
  destruct (outcome (send_to_gemini cfg post (build_prompt d)));
    autorewrite with events outcome; reflexivity.
Qed.

(** C9. Two runs of [generate_recipe] on requests with the same
    ingredients and the same language build and post the same prompt,
    whatever the configuration and the network of each run. *)
Theorem prompt_is_deterministic cfg1 cfg2 post1 post2 d1 d2 :
  ingredients d1 = ingredients d2 ->
  language d1 = language d2 ->
  build_prompt d1 = build_prompt d2
  /\ prompts_sent (events (generate_recipe cfg1 post1 d1))
     = prompts_sent (events (generate_recipe cfg2 post2 d2))
  /\ prompts_sent (events (generate_recipe cfg1 post1 d1))
     = [Some (VStr (build_prompt d1))].
Proof.
  intros Hi Hl.
  assert (build_prompt d1 = build_prompt d2) as Hp
    by (unfold build_prompt; rewrite Hi, Hl; reflexivity).
  rewrite !generate_recipe_posts_once, Hp. auto.
Qed.

Lemma prompt_is_deterministic_witness :
  build_prompt sample_request = build_prompt sample_request
  /\ prompts_sent (events (generate_recipe sample_cfg (fail_with ConnectError)
                             sample_request))
     = prompts_sent
         (events (generate_recipe
                    {| GEMINI_API_KEY := u "other"; GEMINI_MODEL := u "m";
                       BASE_URL := u "http://localhost:8080" |}
                    (respond (status_only 429)) sample_request))
  /\ prompts_sent (events (generate_recipe sample_cfg (fail_with ConnectError)
                             sample_request))
     = [Some (VStr (build_prompt sample_request))].
Proof.
  apply (@prompt_is_deterministic sample_cfg
           {| GEMINI_API_KEY := u "other"; GEMINI_MODEL := u "m";
              BASE_URL := u "http://localhost:8080" |}
           (fail_with ConnectError) (respond (status_only 429))
           sample_request sample_request); reflexivity.
Defined.

Example sample_prompt_has_the_ingredients :
  contains (u "tomato, basil, garlic") (build_prompt sample_request) = true.
Proof. vm_compute. reflexivity. Qed.

(** The stripped templates around the ingredients. *)
Lemma prompt_fr_framed (x : pystr) :
  prompt_fr x = (fr_before ++ [32%N]) ++ x ++ 46%N :: fr_after.
Proof.
  rewrite prompt_fr_closed.
  replace (lstrip prompt_fr_head) with (fr_before ++ [32%N])
    by (vm_compute; reflexivity).
  replace (rstrip prompt_fr_tail) with (46%N :: fr_after)
    by (vm_compute; reflexivity).
  reflexivity.
Qed.

Lemma prompt_en_framed (x : pystr) :
  prompt_en x = (en_before ++ [32%N]) ++ x ++ 46%N :: en_after.
Proof.
  rewrite prompt_en_closed.
  replace (lstrip prompt_en_head) with (en_before ++ [32%N])
    by (vm_compute; reflexivity).
  replace (rstrip prompt_en_tail) with (46%N :: en_after)
    by (vm_compute; reflexivity).
  reflexivity.
Qed.

(** Where a marker made of letters and underscores can occur in a
    prompt. *)
Lemma marker_in_prompt_fr (m x : pystr) :
  existsb (N.eqb 32) m = false ->
  existsb (N.eqb 46) m = false ->
  contains m (prompt_fr x)
  = contains m fr_before || contains m x || contains m fr_after.
Proof. intros. rewrite prompt_fr_framed. apply contains_framed; assumption. Qed.

Lemma marker_in_prompt_en (m x : pystr) :
  existsb (N.eqb 32) m = false ->
  existsb (N.eqb 46) m = false ->
  contains m (prompt_en x)
  = contains m en_before || contains m x || contains m en_after.
Proof. intros. rewrite prompt_en_framed. apply contains_framed; assumption. Qed.

(** Rewrites [contains m (prompt_.. x)] into [contains m x] or [true],
    after evaluation of the test on the two closed parts of the template. *)
Ltac locate_marker lemma m before after :=
  rewrite (@lemma m) by (vm_compute; reflexivity);
  let b := eval vm_compute in (contains m before) in
  let a := eval vm_compute in (contains m after) in
  replace (contains m before) with b by (vm_compute; reflexivity);
  replace (contains m after) with a by (vm_compute; reflexivity);
  cbn [orb]; rewrite ?orb_true_r, ?orb_false_r.

(** C2, as the program has it. For every ingredient list the French prompt
    contains [nom_recette], [description_courte] and [instructions], and the
    English prompt contains [recipe_name], [short_description] and
    [instructions]; the marker [instructions] is common to both. A marker
    proper to the other language occurs in a prompt exactly when the joined
    ingredients contain it. *)
Theorem markers_of_each_language (items : list pystr) :
  let clause := join (u ", ") items in
  let p_fr := build_prompt {| ingredients := items; language := fr |} in
  let p_en := build_prompt {| ingredients := items; language := en |} in
  has_all markers_fr p_fr = true
  /\ has_all markers_en p_en = true
  /\ contains (u "recipe_name") p_fr = contains (u "recipe_name") clause
  /\ contains (u "short_description") p_fr
     = contains (u "short_description") clause
  /\ contains (u "nom_recette") p_en = contains (u "nom_recette") clause
  /\ contains (u "description_courte") p_en
     = contains (u "description_courte") clause.
Proof.
  intros clause p_fr p_en. subst p_fr p_en.
  unfold build_prompt. cbn [ingredients language LanguageEnum_eqb].
  fold clause. generalize clause. clear clause. intros x.
  unfold has_all, markers_fr, markers_en. cbn [forallb].
  repeat split.
  - locate_marker marker_in_prompt_fr (u "nom_recette") fr_before fr_after.
    locate_marker marker_in_prompt_fr (u "description_courte") fr_before fr_after.
    locate_marker marker_in_prompt_fr (u "instructions") fr_before fr_after.
    reflexivity.
  - locate_marker marker_in_prompt_en (u "recipe_name") en_before en_after.
    locate_marker marker_in_prompt_en (u "short_description") en_before en_after.
    locate_marker marker_in_prompt_en (u "instructions") en_before en_after.
    reflexivity.
  - locate_marker marker_in_prompt_fr (u "recipe_name") fr_before fr_after.
    reflexivity.
  - locate_marker marker_in_prompt_fr (u "short_description") fr_before fr_after.
    reflexivity.
  - locate_marker marker_in_prompt_en (u "nom_recette") en_before en_after.
    reflexivity.
  - locate_marker marker_in_prompt_en (u "description_courte") en_before en_after.
    reflexivity.
Qed.

(** C2 as it is written fails: [instructions] belongs to both marker sets,
    so no ingredient list passes the test; and an ingredient that spells
    [recipe_name] puts that marker into the French prompt. *)
Lemma markers_are_not_exclusive :
  markers_as_claimed [u "tomato"; u "basil"; u "garlic"] = false
  /\ contains (u "instructions")
       (build_prompt {| ingredients := [u "tomato"; u "basil"; u "garlic"];
                        language := fr |}) = true
  /\ In (u "instructions") markers_en
  /\ contains (u "recipe_name")
       (build_prompt {| ingredients := [u "recipe_name"]; language := fr |})
     = true.
Proof.
  repeat split; try (vm_compute; reflexivity).
  right. right. left. reflexivity.
Qed.

(* ================================================================= *)
(** ** Requests with no ingredient *)

Lemma validate_ingredients_strs (items : list pystr) :
  validate_ingredients (map VStr items) = Some items.
Proof.
  induction items as [| s items IH]; simpl; [| rewrite IH]; reflexivity.
Qed.

Lemma validate_request_body (items : list pystr) (g : LanguageEnum) :
  validate (request_body items g)
  = Some {| ingredients := items; language := g |}.
Proof.
  unfold validate, request_body.
  replace (lookup (u "ingredients") _) with (Some (VList (map VStr items)))
    by reflexivity.
  replace (lookup (u "language") _) with (Some (VStr (language_tag g)))
    by reflexivity.
  rewrite validate_ingredients_strs. destruct g; reflexivity.
Qed.

(** C4, as the program has it. A request whose list of ingredients is empty
    passes the validation: the handler runs on it, builds the prompt around
    an empty list of ingredients and posts it upstream. *)
Theorem empty_ingredients_are_accepted cfg post (g : LanguageEnum) :
  let data := {| ingredients := []; language := g |} in
  validate (request_body [] g) = Some data
  /\ post_generate_recipe cfg post (request_body [] g)
     = generate_recipe cfg post data
  /\ prompts_sent (events (post_generate_recipe cfg post (request_body [] g)))
     = [Some (VStr (build_prompt data))]
  /\ build_prompt data
     = match g with
       | fr => lstrip prompt_fr_head ++ rstrip prompt_fr_tail
       | en => lstrip prompt_en_head ++ rstrip prompt_en_tail
       end.
Proof.
  intros data.
  assert (validate (request_body [] g) = Some data) as Hv
    by apply validate_request_body.
  assert (post_generate_recipe cfg post (request_body [] g)
          = generate_recipe cfg post data) as Hrun
    by (unfold post_generate_recipe; rewrite Hv; reflexivity).
  repeat split.
  - exact Hv.
  - exact Hrun.
  - rewrite Hrun. apply generate_recipe_posts_once.
  - destruct g; unfold data, build_prompt;
      cbn [ingredients language LanguageEnum_eqb join];
      [apply prompt_fr_closed | apply prompt_en_closed].
Qed.

(** C4 as it is written fails: the request [{ingredients: [], language:
    fr}] is not refused, its prompt is posted and the reply is relayed. *)
Lemma empty_ingredients_reach_upstream :
  let run := post_generate_recipe sample_cfg
               (respond (ok_json (candidates_reply (VStr (u "Recipe XYZ")))))
               (request_body [] fr) in
  outcome run <> Raise RequestValidationError
  /\ outcome run
     = Ok (VDict [(u "message", VStr (u "Recette générée avec succès 🎉"));
                  (u "recipe", VStr (u "Recipe XYZ"))])
  /\ prompts_sent (events run) = [Some (VStr (prompt_fr []))].
Proof.
  repeat split; try (vm_compute; reflexivity).
  vm_compute. discriminate.
Qed.

(* ================================================================= *)
(** ** Every run of [send_to_gemini] *)

(** Splits a goal about [outcome (send_to_gemini cfg post prompt)] by what
    the network did with the request and, for a response, by its status. *)
Ltac send_cases cfg post prompt :=
  let Hpost := fresh "Hpost" in
  let Hstatus := fresh "Hstatus" in
  let response := fresh "response" in
  destruct (post (gemini_request cfg prompt))
    as [response | ? ?] eqn:Hpost;
  [ destruct (is_success (status_code response)) eqn:Hstatus;
    [ rewrite (send_to_gemini_success _ _ _ Hpost Hstatus) in *
    | rewrite (send_to_gemini_status _ _ _ Hpost Hstatus) in * ]
  | rewrite (send_to_gemini_failed _ _ _ Hpost) in * ].

(** What can leave [send_to_gemini] as an exception: one of the five
    [HTTPException]s with their fixed details, [TypeError] or
    [JSONDecodeError]. *)
Lemma send_to_gemini_raise_cases cfg post prompt e :
  outcome (send_to_gemini cfg post prompt) = Raise e ->
  (exists c, e = failure c) \/ e = TypeError \/ e = JSONDecodeError.
Proof.
  send_cases cfg post prompt.
  - destruct (json_body response) as [data |].
    + destruct (extract_text data) as [v | e'] eqn:E; [discriminate |].
      destruct (extract_text_raises _ E) as [-> | [-> | ->]];
        intros H; injection H as <-;
        [left; exists UpstreamBadResponse | left; exists UpstreamBadResponse
         | right; left]; reflexivity.
    + intros H. injection H as <-. right. right. reflexivity.
  - destruct (status_code response =? 429)%Z;
      [| destruct ((status_code response =? 400)
                   || (status_code response =? 401)
                   || (status_code response =? 403))%Z];
      intros H; injection H as <-; left;
      [exists ServiceOverloaded | exists UpstreamMisconfigured
       | exists UpstreamError]; reflexivity.
  - intros H. injection H as <-. left. exists UpstreamUnreachable.
    reflexivity.
Qed.

(** X1. No httpx exception, [KeyError] or [IndexError] leaves
    [send_to_gemini], and the detail of an [HTTPException] it raises is one
    of five fixed strings: neither the text of the upstream response nor the
    message of the network error reaches the caller. *)
Theorem send_to_gemini_hides_upstream_errors cfg post prompt e :
  outcome (send_to_gemini cfg post prompt) = Raise e ->
  (forall response, e <> HTTPStatusError response)
  /\ (forall kind message, e <> RequestError kind message)
  /\ e <> KeyError
  /\ e <> IndexError
  /\ (forall code detail,
      e = HTTPException code detail ->
      In (code, detail)
         [(503%Z, detail_overloaded); (500%Z, detail_configuration);
          (502%Z, detail_upstream); (504%Z, detail_unreachable);
          (500%Z, detail_format)]).
Proof.
  intros H. apply send_to_gemini_raise_cases in H.
  destruct H as [[c ->] | [-> | ->]].
  - split; [| split; [| split; [| split]]];
      [destruct c; discriminate .. |].
    intros code detail Heq. cbn [In].
    assert (code = match failure c with
                   | HTTPException n _ => n
                   | _ => 0%Z
                   end) as -> by (rewrite Heq; reflexivity).
    assert (detail = match failure c with
                     | HTTPException _ s => s
                     | _ => []
                     end) as -> by (rewrite Heq; reflexivity).
    clear Heq. destruct c; cbn [failure].
    + left. reflexivity.
    + right. left. reflexivity.
    + do 2 right. left. reflexivity.
    + do 3 right. left. reflexivity.
    + do 4 right. left. reflexivity.
  - repeat split; discriminate.
  - repeat split; discriminate.
Qed.

Lemma send_to_gemini_hides_upstream_errors_witness :
  (forall response, HTTPException 502 detail_upstream <> HTTPStatusError response)
  /\ (forall kind message,
      HTTPException 502 detail_upstream <> RequestError kind message)
  /\ HTTPException 502 detail_upstream <> KeyError
  /\ HTTPException 502 detail_upstream <> IndexError
  /\ (forall code detail,
      HTTPException 502 detail_upstream = HTTPException code detail ->
      In (code, detail)
         [(503%Z, detail_overloaded); (500%Z, detail_configuration);
          (502%Z, detail_upstream); (504%Z, detail_unreachable);
          (500%Z, detail_format)]).
Proof.
  apply (@send_to_gemini_hides_upstream_errors sample_cfg
           (respond (status_only 500)) (u "soup")).
  reflexivity.
Defined.

(** X2. [send_to_gemini] returns [v] exactly when the network answered with
    a 2xx status and a JSON body that holds [v] at
    [candidates[0].content.parts[0].text]; [v] is returned whatever its
    type, a number or [None] as well as a string. *)
Theorem send_to_gemini_returns_iff cfg post prompt v :
  outcome (send_to_gemini cfg post prompt) = Ok v
  <-> exists response data,
      post (gemini_request cfg prompt) = Responded response
      /\ is_success (status_code response) = true
      /\ json_body response = Some data
      /\ json_path text_path data = Some v.
Proof.
  split.
  - send_cases cfg post prompt.
    + destruct (json_body response) as [data |] eqn:Hbody; [| discriminate].
      destruct (extract_text data) as [v' | e] eqn:E.
      * intros H. injection H as ->.
        exists response, data. apply extract_text_ok in E. auto.
      * destruct (extract_text_raises _ E) as [-> | [-> | ->]]; discriminate.
    + destruct (status_code response =? 429)%Z;
        [| destruct ((status_code response =? 400)
                     || (status_code response =? 401)
                     || (status_code response =? 403))%Z]; discriminate.
    + discriminate.
  - intros (response & data & Hpost & Hstatus & Hbody & Hpath).
    rewrite (send_to_gemini_success _ _ _ Hpost Hstatus), Hbody.
    apply extract_text_ok in Hpath. rewrite Hpath. reflexivity.
Qed.

Example number_is_returned_as_text :
  outcome (send_to_gemini sample_cfg
             (respond (ok_json (candidates_reply (VInt 7)))) (u "soup"))
  = Ok (VInt 7).
Proof. reflexivity. Qed.

Lemma posts_app (a b : list event) :
  posts (a ++ b) = posts a ++ posts b.
Proof.
  induction a as [| [line | request] a IH]; simpl; [| | rewrite IH];
    auto.
Qed.

(** X4. The trace of [send_to_gemini]: the sending line, the POST, then one
    line that depends on the exchange; the line of a received response is
    printed before the body is searched, and nothing is printed for a 2xx
    body that does not decode. The error line of a refused request carries
    the status and the text of the upstream response. *)
Theorem send_to_gemini_trace cfg post prompt :
  events (send_to_gemini cfg post prompt)
  = Print sending_line
    :: Post (gemini_request cfg prompt)
    :: match post (gemini_request cfg prompt) with
       | Failed _ message => [Print (network_error_line message)]
       | Responded response =>
           if is_success (status_code response) then
             match json_body response with
             | Some _ => [Print received_line]
             | None => []
             end
           else [Print (http_error_line response)]
       end.
Proof.
  unfold send_to_gemini, raise_for_status, response_json,
    sending_line, received_line, http_error_line, network_error_line.
  autorewrite with events outcome.
  destruct (post (gemini_request cfg prompt)) as [response | kind message].
  - destruct (is_success (status_code response)).
    + autorewrite with events outcome.
      destruct (json_body response) as [data |];
        autorewrite with events outcome; [| reflexivity].
      destruct (extract_text data) as [v | e] eqn:E; [reflexivity |].
      destruct (extract_text_raises _ E) as [-> | [-> | ->]]; reflexivity.
    + autorewrite with events outcome.
      destruct (status_code response =? 429)%Z;
        [| destruct ((status_code response =? 400)
                     || (status_code response =? 401)
                     || (status_code response =? 403))%Z];
        reflexivity.
  - autorewrite with events outcome. reflexivity.
Qed.

(** X3. Whatever the network does, a run of [send_to_gemini] posts once,
    and what it posts is the request built from the configuration and the
    prompt: no status and no error makes it try again. The same holds of
    [generate_recipe] with the prompt it builds. *)
Theorem one_post_per_run cfg post prompt d :
  posts (events (send_to_gemini cfg post prompt)) = [gemini_request cfg prompt]
  /\ posts (events (generate_recipe cfg post d))
     = [gemini_request cfg (build_prompt d)].
Proof.
  assert (forall p, posts (events (send_to_gemini cfg post p))
                    = [gemini_request cfg p]) as Hsend.
  { intros p. unfold send_to_gemini, raise_for_status, response_json.
    autorewrite with events outcome.
    destruct (post (gemini_request cfg p)) as [response | kind message].
    - destruct (is_success (status_code response)).
      + autorewrite with events outcome.
        destruct (json_body response) as [data |];
          autorewrite with events outcome; [| reflexivity].
        destruct (extract_text data) as [v | e] eqn:E; [reflexivity |].
        destruct (extract_text_raises _ E) as [-> | [-> | ->]]; reflexivity.
      + autorewrite with events outcome.
        destruct (status_code response =? 429)%Z;
          [| destruct ((status_code response =? 400)
                       || (status_code response =? 401)
                       || (status_code response =? 403))%Z];
          reflexivity.
    - autorewrite with events outcome. reflexivity. }
  split; [apply Hsend |].
  rewrite generate_recipe_prompt.
  autorewrite with events outcome.
  rewrite !posts_app, Hsend. cbn [posts app].
  destruct (outcome (send_to_gemini cfg post (build_prompt d)));
    autorewrite with events outcome; reflexivity.
Qed.

(** X5. [generate_recipe] adds nothing to a failure of [send_to_gemini]:
    the exception passes through and the closing line is not printed. On
    success it wraps the text in the object with the members [message] and
    [recipe]. *)
Theorem generate_recipe_relays cfg post d :
  outcome (generate_recipe cfg post d)
  = match outcome (send_to_gemini cfg post (build_prompt d)) with
    | Ok gemini_response => Ok (recipe_response gemini_response)
    | Raise e => Raise e
    end
  /\ events (generate_recipe cfg post d)
     = Print prompt_built_line
       :: events (send_to_gemini cfg post (build_prompt d))
       ++ match outcome (send_to_gemini cfg post (build_prompt d)) with
          | Ok _ => [Print recipe_done_line]
          | Raise _ => []
          end.
Proof.
  rewrite generate_recipe_prompt.
  unfold prompt_built_line, recipe_done_line, recipe_response.
  autorewrite with events outcome.
  destruct (outcome (send_to_gemini cfg post (build_prompt d)));
    autorewrite with events outcome; cbn [app]; split; reflexivity.
Qed.

(* ================================================================= *)
(** ** Validation of the request body *)

Lemma pystr_eqb_eq (a b : pystr) : pystr_eqb a b = true <-> a = b.
Proof.
  revert b. induction a as [| x a IH]; intros [| y b]; simpl;
    try (split; [discriminate | discriminate]).
  - split; reflexivity.
  - rewrite andb_true_iff, N.eqb_eq, IH. split.
    + intros [-> ->]. reflexivity.
    + intros H. injection H as -> ->. auto.
Qed.

Lemma validate_ingredients_inv (items : list value) (l : list pystr) :
  validate_ingredients items = Some l -> items = map VStr l.
Proof.
  revert l. induction items as [| v items IH]; intros l; simpl.
  - intros H. injection H as <-. reflexivity.
  - destruct v; try discriminate.
    destruct (validate_ingredients items) as [l' |]; [| discriminate].
    intros H. injection H as <-. rewrite (IH l' eq_refl). reflexivity.
Qed.

Lemma validate_language_inv (v : value) (g : LanguageEnum) :
  validate_language v = Some g -> v = VStr (language_tag g).
Proof.
  unfold validate_language. destruct v; try discriminate.
  destruct (pystr_eqb s (u "fr")) eqn:Efr.
  - intros H. injection H as <-. apply pystr_eqb_eq in Efr. rewrite Efr.
    reflexivity.
  - destruct (pystr_eqb s (u "en")) eqn:Een; [| discriminate].
    intros H. injection H as <-. apply pystr_eqb_eq in Een. rewrite Een.
    reflexivity.
Qed.

Lemma validate_language_tag (g : LanguageEnum) :
  validate_language (VStr (language_tag g)) = Some g.
Proof. destruct g; reflexivity. Qed.

(** X6. The body [RecipeRequest] accepts: an object whose member
    [ingredients] is a list of strings, of any length, and whose member
    [language] is the string [fr] or [en]; the request holds these strings in
    their order. Other members of the object are ignored; any other body is
    refused. *)
Theorem validate_accepts_iff (body : value) (data : RecipeRequest) :
  validate body = Some data
  <-> exists d,
      body = VDict d
      /\ lookup (u "ingredients") d = Some (VList (map VStr (ingredients data)))
      /\ lookup (u "language") d = Some (VStr (language_tag (language data))).
Proof.
  unfold validate. split.
  - destruct body as [| | | | | | d]; try discriminate.
    destruct (lookup (u "ingredients") d) as [[| | | | | items |] |] eqn:Li;
      try discriminate.
    destruct (lookup (u "language") d) as [lang |] eqn:Ll; [| discriminate].
    destruct (validate_ingredients items) as [l |] eqn:El; [| discriminate].
    destruct (validate_language lang) as [g |] eqn:Eg; [| discriminate].
    intros H.
    assert (data = {| ingredients := l; language := g |}) as ->
      by congruence.
    apply validate_ingredients_inv in El.
    apply validate_language_inv in Eg. subst items lang.
    exists d. cbn [ingredients language]. auto.
  - intros (d & -> & -> & ->).
    rewrite validate_ingredients_strs, validate_language_tag.
    destruct data. reflexivity.
Qed.

(** X7. The route refuses a body exactly when the validation refuses it,
    and then nothing is printed and nothing is posted; once a body is
    accepted, no later step raises the validation error, and the handler
    has printed at least one line. *)
Theorem refused_iff_invalid cfg post (body : value) :
  (outcome (post_generate_recipe cfg post body) = Raise RequestValidationError
   <-> validate body = None)
  /\ (events (post_generate_recipe cfg post body) = []
      <-> validate body = None).
Proof.
  unfold post_generate_recipe.
  destruct (validate body) as [data |].
  - split; split; try discriminate.
    + rewrite generate_recipe_prompt. autorewrite with outcome.
      destruct (outcome (send_to_gemini cfg post (build_prompt data)))
        as [v | e] eqn:E; autorewrite with outcome; [discriminate |].
      intros H.
      assert (e = RequestValidationError) as -> by congruence.
      apply send_to_gemini_raise_cases in E.
      destruct E as [[c Hc] | [Hc | Hc]]; [destruct c |..]; discriminate.
    + rewrite generate_recipe_prompt. autorewrite with events.
      cbn [app]. discriminate.
  - split; split; reflexivity.
Qed.

Example unknown_language_is_refused :
  post_generate_recipe sample_cfg (respond (status_only 500))
    (VDict [(u "ingredients", VList [VStr (u "tomato")]);
            (u "language", VStr (u "de"))])
  = ([], Raise RequestValidationError).
Proof. reflexivity. Qed.

Example number_among_ingredients_is_refused :
  post_generate_recipe sample_cfg (respond (status_only 500))
    (VDict [(u "ingredients", VList [VStr (u "tomato"); VInt 3]);
            (u "language", VStr (u "fr"))])
  = ([], Raise RequestValidationError).
Proof. reflexivity. Qed.

(* ================================================================= *)
(** ** Start-up *)

(** X8. The module refuses to load, with the [RuntimeError] of line 22,
    exactly when [GEMINI_API_KEY] is unset or set to the empty string;
    neither the locale nor the other two variables matter. *)
Theorem startup_refuses_without_key (locale_available : bool)
    (environ : pystr -> option pystr) :
  (environ (u "GEMINI_API_KEY") = None
   \/ environ (u "GEMINI_API_KEY") = Some [])
  <-> snd (startup locale_available environ) = RuntimeError missing_key_message.
Proof.
  unfold startup.
  destruct (environ (u "GEMINI_API_KEY")) as [[| c key] |]; cbn [snd].
  - split; auto.
  - split; [intros [H | H]; discriminate | discriminate].
  - split; auto.
Qed.

(** X9. When the module loads, the configuration holds the key of the
    environment, which is not empty, and for the model and the base URL
    the value of the environment when the variable is set, the empty string
    included, and the default only when it is unset. *)
Theorem startup_configuration (locale_available : bool)
    (environ : pystr -> option pystr) (cfg : Config) :
  snd (startup locale_available environ) = Started cfg ->
  environ (u "GEMINI_API_KEY") = Some (GEMINI_API_KEY cfg)
  /\ GEMINI_API_KEY cfg <> []
  /\ GEMINI_MODEL cfg
     = match environ (u "GEMINI_MODEL") with
       | Some model => model
       | None => u "gemini-2.5-flash"
       end
  /\ BASE_URL cfg
     = match environ (u "BASE_URL") with
       | Some base => base
       | None => u "https://generativelanguage.googleapis.com"
       end.
Proof.
  unfold startup, getenv_default.
  destruct (environ (u "GEMINI_API_KEY")) as [[| c key] |]; cbn [snd];
    try discriminate.
  intros H.
  apply (f_equal (fun o => match o with
                           | Started c' => c'
                           | RuntimeError _ => cfg
                           end)) in H.
  subst cfg. cbn [GEMINI_API_KEY GEMINI_MODEL BASE_URL].
  repeat split. discriminate.
Qed.

Lemma startup_configuration_witness :
  key_only_environ (u "GEMINI_API_KEY") = Some (GEMINI_API_KEY sample_cfg)
  /\ GEMINI_API_KEY sample_cfg <> []
  /\ GEMINI_MODEL sample_cfg
     = match key_only_environ (u "GEMINI_MODEL") with
       | Some model => model
       | None => u "gemini-2.5-flash"
       end
  /\ BASE_URL sample_cfg
     = match key_only_environ (u "BASE_URL") with
       | Some base => base
       | None => u "https://generativelanguage.googleapis.com"
       end.
Proof.
  apply (@startup_configuration true key_only_environ sample_cfg).
  reflexivity.
Defined.

(** A model set to the empty string is kept, and the request goes to a
    path without a model name. *)
Example empty_model_is_kept :
  snd (startup false empty_model_environ)
  = Started {| GEMINI_API_KEY := u "secret"; GEMINI_MODEL := [];
               BASE_URL := u "https://generativelanguage.googleapis.com" |}
  /\ url (gemini_request
            {| GEMINI_API_KEY := u "secret"; GEMINI_MODEL := [];
               BASE_URL := u "https://generativelanguage.googleapis.com" |}
            (u "soup"))
     = u "https://generativelanguage.googleapis.com/v1beta/models/:generateContent?key=secret".
Proof. split; reflexivity. Qed.

(* ================================================================= *)
(** ** The prompt and its ingredients *)

Lemma contains_within (m a x b : pystr) :
  contains m x = true -> contains m (a ++ x ++ b) = true.
Proof.
  rewrite !contains_spec. intros [p [q ->]].
  exists (a ++ p), (q ++ b). rewrite <- !app_assoc. reflexivity.
Qed.

Lemma contains_refl (m : pystr) : contains m m = true.
Proof.
  apply contains_spec. exists [], []. rewrite app_nil_r. reflexivity.
Qed.

Lemma contains_join (sep x : pystr) (items : list pystr) :
  In x items -> contains x (join sep items) = true.
Proof.
  induction items as [| a [| b rest] IH]; intros Hin.
  - destruct Hin.
  - destruct Hin as [-> | []]. apply contains_refl.
  - change (join sep (a :: b :: rest)) with (a ++ sep ++ join sep (b :: rest)).
    destruct Hin as [-> | Hin].
    + apply (@contains_within x [] x (sep ++ join sep (b :: rest))),
        contains_refl.
    + replace (a ++ sep ++ join sep (b :: rest))
        with ((a ++ sep) ++ join sep (b :: rest) ++ [])
        by (rewrite app_nil_r, app_assoc; reflexivity).
      apply contains_within, IH, Hin.
Qed.

(** The prompt of a request: the stripped head and tail of the template
    of its language around the joined ingredients. *)
Lemma build_prompt_closed (d : RecipeRequest) :
  build_prompt d
  = match language d with
    | fr => lstrip prompt_fr_head ++ join (u ", ") (ingredients d)
              ++ rstrip prompt_fr_tail
    | en => lstrip prompt_en_head ++ join (u ", ") (ingredients d)
              ++ rstrip prompt_en_tail
    end.
Proof.
  unfold build_prompt.
  destruct (language d); cbn [LanguageEnum_eqb];
    [apply prompt_fr_closed | apply prompt_en_closed].
Qed.

(** X10. The prompt contains the ingredients joined by a comma and a
    space, and so every ingredient of the request, in both languages and
    whatever the ingredients are. *)
Theorem prompt_embeds_ingredients (d : RecipeRequest) :
  contains (join (u ", ") (ingredients d)) (build_prompt d) = true
  /\ forall x, In x (ingredients d) -> contains x (build_prompt d) = true.
Proof.
  rewrite build_prompt_closed.
  split; [| intros x Hin; apply (contains_join (u ", ")) in Hin];
    destruct (language d); apply contains_within;
    solve [apply contains_refl | exact Hin].
Qed.

Lemma prompt_embeds_ingredients_witness :
  contains (u "basil") (build_prompt sample_request) = true.
Proof.
  apply (proj2 (prompt_embeds_ingredients sample_request)).
  right. left. reflexivity.
Defined.

Lemma startswith_app (m a b : pystr) :
  startswith m a = true -> startswith m (a ++ b) = true.
Proof.
  rewrite !startswith_spec. intros [q ->].
  exists (q ++ b). rewrite app_assoc. reflexivity.
Qed.

(** X11. The prompt has no white space at either end and begins with the
    first words of its template, even when the ingredients begin or end
    with white space: [strip] removes the indentation of the literal and
    nothing of the ingredients. *)
Theorem prompt_is_stripped (d : RecipeRequest) :
  strip (build_prompt d) = build_prompt d
  /\ startswith (match language d with
                 | fr => u "Tu es un chef cuisinier"
                 | en => u "You're a creative and passionate chef"
                 end) (build_prompt d) = true.
Proof.
  rewrite build_prompt_closed.
  generalize (join (u ", ") (ingredients d)). intros x.
  unfold strip.
  destruct (language d); split.
  - rewrite lstrip_app by (vm_compute; discriminate).
    replace (lstrip (lstrip prompt_fr_head)) with (lstrip prompt_fr_head)
      by (vm_compute; reflexivity).
    rewrite app_assoc, rstrip_app by (vm_compute; discriminate).
    replace (rstrip (rstrip prompt_fr_tail)) with (rstrip prompt_fr_tail)
      by (vm_compute; reflexivity).
    rewrite <- app_assoc. reflexivity.
  - apply startswith_app. vm_compute. reflexivity.
  - rewrite lstrip_app by (vm_compute; discriminate).
    replace (lstrip (lstrip prompt_en_head)) with (lstrip prompt_en_head)
      by (vm_compute; reflexivity).
    rewrite app_assoc, rstrip_app by (vm_compute; discriminate).
    replace (rstrip (rstrip prompt_en_tail)) with (rstrip prompt_en_tail)
      by (vm_compute; reflexivity).
    rewrite <- app_assoc. reflexivity.
  - apply startswith_app. vm_compute. reflexivity.
Qed.

Example padded_ingredient_is_kept :
  contains (u ":  tomato  .")
    (build_prompt {| ingredients := [u " tomato  "]; language := en |}) = true.
Proof. vm_compute. reflexivity. Qed.

(** X12. A prompt determines the language and the joined ingredients of
    its request: two requests with the same prompt have the same language
    and the same ingredient text. *)
Theorem prompt_determines_request (d1 d2 : RecipeRequest) :
  build_prompt d1 = build_prompt d2 ->
  language d1 = language d2
  /\ join (u ", ") (ingredients d1) = join (u ", ") (ingredients d2).
Proof.
  rewrite !build_prompt_closed.
  generalize (join (u ", ") (ingredients d1)) as x1.
  generalize (join (u ", ") (ingredients d2)) as x2.
  intros x2 x1.
  destruct (language d1), (language d2); intros H.
  - split; [reflexivity |].
    apply app_inv_head in H. apply app_inv_tail in H. exact H.
  - exfalso. apply (f_equal (hd 0%N)) in H.
    replace (lstrip prompt_fr_head) with (84%N :: tl (lstrip prompt_fr_head))
      in H by (vm_compute; reflexivity).
    replace (lstrip prompt_en_head) with (89%N :: tl (lstrip prompt_en_head))
      in H by (vm_compute; reflexivity).
    cbn [app hd] in H. discriminate H.
  - exfalso. apply (f_equal (hd 0%N)) in H.
    replace (lstrip prompt_fr_head) with (84%N :: tl (lstrip prompt_fr_head))
      in H by (vm_compute; reflexivity).
    replace (lstrip prompt_en_head) with (89%N :: tl (lstrip prompt_en_head))
      in H by (vm_compute; reflexivity).
    cbn [app hd] in H. discriminate H.
  - split; [reflexivity |].
    apply app_inv_head in H. apply app_inv_tail in H. exact H.
Qed.

(** X13. The ingredient list itself is not recoverable from the prompt: an
    ingredient that contains a comma and a space gives the prompt of the two
    ingredients it spells. *)
Theorem separator_in_ingredient_splits (a b : pystr) (rest : list pystr)
    (g : LanguageEnum) :
  build_prompt {| ingredients := (a ++ u ", " ++ b) :: rest; language := g |}
  = build_prompt {| ingredients := a :: b :: rest; language := g |}.
Proof.
  unfold build_prompt. cbn [ingredients language].
  assert (join (u ", ") ((a ++ u ", " ++ b) :: rest)
          = join (u ", ") (a :: b :: rest)) as ->; [| reflexivity].
  generalize (u ", ") as sep. intros sep.
  destruct rest as [| c rest]; cbn [join].
  - reflexivity.
  - rewrite <- !app_assoc. reflexivity.
Qed.

Lemma prompt_determines_request_witness :
  language {| ingredients := [u "tomato, basil"]; language := fr |}
  = language {| ingredients := [u "tomato"; u "basil"]; language := fr |}
  /\ join (u ", ")
       (ingredients {| ingredients := [u "tomato, basil"]; language := fr |})
     = join (u ", ")
         (ingredients {| ingredients := [u "tomato"; u "basil"];
                         language := fr |}).
Proof.
  apply (@prompt_determines_request
           {| ingredients := [u "tomato, basil"]; language := fr |}
           {| ingredients := [u "tomato"; u "basil"]; language := fr |}).
  vm_compute. reflexivity.
Defined.
